(** * The adaptive streaming engine of web-tv-player

    A shallow embedding of [AdaptiveStreamingEngine]
    (src/utils/adaptiveStreaming.ts) and of the one call the hook
    [useAdaptiveStreaming] makes into it every second ([updateCooldown]).

    Modelling conventions.
    - A JavaScript [number] that carries a measurement (bitrate, bandwidth,
      seconds, percentages) is an exact rational [Q]; rounding, NaN and the
      infinities of IEEE doubles are outside the model.  Counters and the
      cooldown, which only ever hold integers, are [Z].
    - The engine object is the record [Engine]; every method is a function
      from the engine to the engine after the call.
    - What the browser decides (the playback position, the buffered ranges,
      whether a Media Source call throws, what a fetch returns) is an input
      of the call: the record [Platform] and the result types below.
    - An [async] method is cut at its [await]s.  The code before the first
      [await] runs inside the caller; the rest runs later.  [switchQuality]
      awaits a promise that is already resolved, so its second half runs as
      a microtask of the same event-loop turn; the halves after a [fetch]
      run in a later turn and are events of their own. *)

From Stdlib Require Import QArith Qminmax ZArith List Bool Lia Lqa Sorted.
From stdpp Require Import base list strings pretty.

Local Open Scope Z_scope.

(** ** Numbers *)

Definition Qleb (a b : Q) : bool := Qle_bool a b.
Definition Qltb (a b : Q) : bool := negb (Qle_bool b a).

(** ** Data model (the exported interfaces) *)

Record Resolution := { width : Q; height : Q }.

Record QualityLevel := {
  q_id : string;
  q_bitrate : Q;
  q_resolution : Resolution;
  q_codec : string;
  q_mimeType : string;
  q_url : string;
  q_bandwidth : Q
}.

Record AdaptiveStreamingConfig := {
  qualities : list QualityLevel;
  networkCheckInterval : Q;
  targetBufferLength : Q;
  maxBufferLength : Q;
  minBufferLength : Q;
  lowLatencyMode : bool;
  segmentDuration : Q;
  rebufferThreshold : Q;
  qualitySwitchThreshold : Q
}.

Inductive ConnectionType :=
  Slow2g | Conn2g | Conn3g | Conn4g | Conn5g | Wifi | Ethernet.

Record NetworkMetrics := {
  nm_bandwidth : Q;
  nm_latency : Q;
  nm_packetLoss : Q;
  nm_jitter : Q;
  nm_throughput : Q;
  nm_connectionType : ConnectionType
}.

Inductive UserExperience := Excellent | Good | Fair | Poor.

Record AdaptiveMetrics := {
  am_currentQuality : string;
  am_qualitySwitches : Z;
  am_rebufferingEvents : Z;
  am_averageLatency : Q;
  am_bufferHealth : Q;
  am_networkStability : Q;
  am_userExperience : UserExperience
}.

(** ** Browser objects *)

Definition ArrayBuffer := list Byte.byte.

Inductive MediaSource := MkMediaSource.
Inductive HTMLVideoElement := MkVideoElement.

(** A [SourceBuffer] as the engine sees it: the type string it was created
    with and its [updating] flag, which [appendBuffer] raises and the
    [updateend] event lowers. *)
Record SourceBuffer := { sb_type : string; sb_updating : bool }.

(** What the browser reports or decides during one call. *)
Record Platform := {
  currentTime : Q;                 (* videoElement.currentTime *)
  buffered : list (Q * Q);         (* sourceBuffer.buffered, (start, end) *)
  now : Q;                         (* performance.now() *)
  addSourceBufferThrows : bool;    (* mediaSource.addSourceBuffer throws *)
  removeSourceBufferThrows : bool; (* mediaSource.removeSourceBuffer throws *)
  appendBufferThrows : bool        (* appendBuffer throws for a reason other
                                      than [updating] *)
}.

Inductive JsError :=
| Error (message : string)         (* new Error(message) *)
| PlatformError (name : string).   (* an exception of a browser API *)

(** How a call ends: normally, or with an exception (a rejected promise for
    an [async] method). *)
Inductive Completion := Normal | Throw (e : JsError).

(** Requests the engine sends out. *)
Inductive Effect :=
| Fetch (url : string)
| AppendBuffer (segment : ArrayBuffer).

(** ** The engine *)

Record Engine := {
  mediaSource : option MediaSource;
  sourceBuffer : option SourceBuffer;
  videoElement : option HTMLVideoElement;
  config : AdaptiveStreamingConfig;
  currentQuality : option QualityLevel;
  networkMetrics : NetworkMetrics;
  adaptiveMetrics : AdaptiveMetrics;
  qualityHistory : list string;
  rebufferingEvents : list Q;
  networkMonitorInterval : bool;   (* a timer handle is stored *)
  bufferMonitorInterval : bool;
  isPlaying : bool;
  isBuffering : bool;
  lastSegmentTime : Q;
  segmentQueue : list ArrayBuffer;
  qualitySwitchCooldown : Z
}.

(** Field assignments. *)

Definition set_mediaSource (v : option MediaSource) (s : Engine) : Engine :=
  {| mediaSource := v; sourceBuffer := sourceBuffer s;
     videoElement := videoElement s; config := config s;
     currentQuality := currentQuality s; networkMetrics := networkMetrics s;
     adaptiveMetrics := adaptiveMetrics s; qualityHistory := qualityHistory s;
     rebufferingEvents := rebufferingEvents s;
     networkMonitorInterval := networkMonitorInterval s;
     bufferMonitorInterval := bufferMonitorInterval s;
     isPlaying := isPlaying s; isBuffering := isBuffering s;
     lastSegmentTime := lastSegmentTime s; segmentQueue := segmentQueue s;
     qualitySwitchCooldown := qualitySwitchCooldown s |}.

Definition set_sourceBuffer (v : option SourceBuffer) (s : Engine) : Engine :=
  {| mediaSource := mediaSource s; sourceBuffer := v;
     videoElement := videoElement s; config := config s;
     currentQuality := currentQuality s; networkMetrics := networkMetrics s;
     adaptiveMetrics := adaptiveMetrics s; qualityHistory := qualityHistory s;
     rebufferingEvents := rebufferingEvents s;
     networkMonitorInterval := networkMonitorInterval s;
     bufferMonitorInterval := bufferMonitorInterval s;
     isPlaying := isPlaying s; isBuffering := isBuffering s;
     lastSegmentTime := lastSegmentTime s; segmentQueue := segmentQueue s;
     qualitySwitchCooldown := qualitySwitchCooldown s |}.

Definition set_videoElement (v : option HTMLVideoElement) (s : Engine) : Engine :=
  {| mediaSource := mediaSource s; sourceBuffer := sourceBuffer s;
     videoElement := v; config := config s;
     currentQuality := currentQuality s; networkMetrics := networkMetrics s;
     adaptiveMetrics := adaptiveMetrics s; qualityHistory := qualityHistory s;
     rebufferingEvents := rebufferingEvents s;
     networkMonitorInterval := networkMonitorInterval s;
     bufferMonitorInterval := bufferMonitorInterval s;
     isPlaying := isPlaying s; isBuffering := isBuffering s;
     lastSegmentTime := lastSegmentTime s; segmentQueue := segmentQueue s;
     qualitySwitchCooldown := qualitySwitchCooldown s |}.

Definition set_currentQuality (v : option QualityLevel) (s : Engine) : Engine :=
  {| mediaSource := mediaSource s; sourceBuffer := sourceBuffer s;
     videoElement := videoElement s; config := config s;
     currentQuality := v; networkMetrics := networkMetrics s;
     adaptiveMetrics := adaptiveMetrics s; qualityHistory := qualityHistory s;
     rebufferingEvents := rebufferingEvents s;
     networkMonitorInterval := networkMonitorInterval s;
     bufferMonitorInterval := bufferMonitorInterval s;
     isPlaying := isPlaying s; isBuffering := isBuffering s;
     lastSegmentTime := lastSegmentTime s; segmentQueue := segmentQueue s;
     qualitySwitchCooldown := qualitySwitchCooldown s |}.

Definition set_networkMetrics (v : NetworkMetrics) (s : Engine) : Engine :=
  {| mediaSource := mediaSource s; sourceBuffer := sourceBuffer s;
     videoElement := videoElement s; config := config s;
     currentQuality := currentQuality s; networkMetrics := v;
     adaptiveMetrics := adaptiveMetrics s; qualityHistory := qualityHistory s;
     rebufferingEvents := rebufferingEvents s;
     networkMonitorInterval := networkMonitorInterval s;
     bufferMonitorInterval := bufferMonitorInterval s;
     isPlaying := isPlaying s; isBuffering := isBuffering s;
     lastSegmentTime := lastSegmentTime s; segmentQueue := segmentQueue s;
     qualitySwitchCooldown := qualitySwitchCooldown s |}.

Definition set_adaptiveMetrics (v : AdaptiveMetrics) (s : Engine) : Engine :=
  {| mediaSource := mediaSource s; sourceBuffer := sourceBuffer s;
     videoElement := videoElement s; config := config s;
     currentQuality := currentQuality s; networkMetrics := networkMetrics s;
     adaptiveMetrics := v; qualityHistory := qualityHistory s;
     rebufferingEvents := rebufferingEvents s;
     networkMonitorInterval := networkMonitorInterval s;
     bufferMonitorInterval := bufferMonitorInterval s;
     isPlaying := isPlaying s; isBuffering := isBuffering s;
     lastSegmentTime := lastSegmentTime s; segmentQueue := segmentQueue s;
     qualitySwitchCooldown := qualitySwitchCooldown s |}.

Definition set_qualityHistory (v : list string) (s : Engine) : Engine :=
  {| mediaSource := mediaSource s; sourceBuffer := sourceBuffer s;
     videoElement := videoElement s; config := config s;
     currentQuality := currentQuality s; networkMetrics := networkMetrics s;
     adaptiveMetrics := adaptiveMetrics s; qualityHistory := v;
     rebufferingEvents := rebufferingEvents s;
     networkMonitorInterval := networkMonitorInterval s;
     bufferMonitorInterval := bufferMonitorInterval s;
     isPlaying := isPlaying s; isBuffering := isBuffering s;
     lastSegmentTime := lastSegmentTime s; segmentQueue := segmentQueue s;
     qualitySwitchCooldown := qualitySwitchCooldown s |}.

Definition set_rebufferingEvents (v : list Q) (s : Engine) : Engine :=
  {| mediaSource := mediaSource s; sourceBuffer := sourceBuffer s;
     videoElement := videoElement s; config := config s;
     currentQuality := currentQuality s; networkMetrics := networkMetrics s;
     adaptiveMetrics := adaptiveMetrics s; qualityHistory := qualityHistory s;
     rebufferingEvents := v;
     networkMonitorInterval := networkMonitorInterval s;
     bufferMonitorInterval := bufferMonitorInterval s;
     isPlaying := isPlaying s; isBuffering := isBuffering s;
     lastSegmentTime := lastSegmentTime s; segmentQueue := segmentQueue s;
     qualitySwitchCooldown := qualitySwitchCooldown s |}.

Definition set_monitorIntervals (network buffer : bool) (s : Engine) : Engine :=
  {| mediaSource := mediaSource s; sourceBuffer := sourceBuffer s;
     videoElement := videoElement s; config := config s;
     currentQuality := currentQuality s; networkMetrics := networkMetrics s;
     adaptiveMetrics := adaptiveMetrics s; qualityHistory := qualityHistory s;
     rebufferingEvents := rebufferingEvents s;
     networkMonitorInterval := network;
     bufferMonitorInterval := buffer;
     isPlaying := isPlaying s; isBuffering := isBuffering s;
     lastSegmentTime := lastSegmentTime s; segmentQueue := segmentQueue s;
     qualitySwitchCooldown := qualitySwitchCooldown s |}.

Definition set_isBuffering (v : bool) (s : Engine) : Engine :=
  {| mediaSource := mediaSource s; sourceBuffer := sourceBuffer s;
     videoElement := videoElement s; config := config s;
     currentQuality := currentQuality s; networkMetrics := networkMetrics s;
     adaptiveMetrics := adaptiveMetrics s; qualityHistory := qualityHistory s;
     rebufferingEvents := rebufferingEvents s;
     networkMonitorInterval := networkMonitorInterval s;
     bufferMonitorInterval := bufferMonitorInterval s;
     isPlaying := isPlaying s; isBuffering := v;
     lastSegmentTime := lastSegmentTime s; segmentQueue := segmentQueue s;
     qualitySwitchCooldown := qualitySwitchCooldown s |}.

Definition set_lastSegmentTime (v : Q) (s : Engine) : Engine :=
  {| mediaSource := mediaSource s; sourceBuffer := sourceBuffer s;
     videoElement := videoElement s; config := config s;
     currentQuality := currentQuality s; networkMetrics := networkMetrics s;
     adaptiveMetrics := adaptiveMetrics s; qualityHistory := qualityHistory s;
     rebufferingEvents := rebufferingEvents s;
     networkMonitorInterval := networkMonitorInterval s;
     bufferMonitorInterval := bufferMonitorInterval s;
     isPlaying := isPlaying s; isBuffering := isBuffering s;
     lastSegmentTime := v; segmentQueue := segmentQueue s;
     qualitySwitchCooldown := qualitySwitchCooldown s |}.

Definition set_segmentQueue (v : list ArrayBuffer) (s : Engine) : Engine :=
  {| mediaSource := mediaSource s; sourceBuffer := sourceBuffer s;
     videoElement := videoElement s; config := config s;
     currentQuality := currentQuality s; networkMetrics := networkMetrics s;
     adaptiveMetrics := adaptiveMetrics s; qualityHistory := qualityHistory s;
     rebufferingEvents := rebufferingEvents s;
     networkMonitorInterval := networkMonitorInterval s;
     bufferMonitorInterval := bufferMonitorInterval s;
     isPlaying := isPlaying s; isBuffering := isBuffering s;
     lastSegmentTime := lastSegmentTime s; segmentQueue := v;
     qualitySwitchCooldown := qualitySwitchCooldown s |}.

Definition set_qualitySwitchCooldown (v : Z) (s : Engine) : Engine :=
  {| mediaSource := mediaSource s; sourceBuffer := sourceBuffer s;
     videoElement := videoElement s; config := config s;
     currentQuality := currentQuality s; networkMetrics := networkMetrics s;
     adaptiveMetrics := adaptiveMetrics s; qualityHistory := qualityHistory s;
     rebufferingEvents := rebufferingEvents s;
     networkMonitorInterval := networkMonitorInterval s;
     bufferMonitorInterval := bufferMonitorInterval s;
     isPlaying := isPlaying s; isBuffering := isBuffering s;
     lastSegmentTime := lastSegmentTime s; segmentQueue := segmentQueue s;
     qualitySwitchCooldown := v |}.

(** Assignments to the fields of the two metrics objects. *)

Definition with_throughput (v : Q) (m : NetworkMetrics) : NetworkMetrics :=
  {| nm_bandwidth := nm_bandwidth m; nm_latency := nm_latency m;
     nm_packetLoss := nm_packetLoss m; nm_jitter := nm_jitter m;
     nm_throughput := v; nm_connectionType := nm_connectionType m |}.

Definition with_connection (t : ConnectionType) (bw : Q) (m : NetworkMetrics)
  : NetworkMetrics :=
  {| nm_bandwidth := bw; nm_latency := nm_latency m;
     nm_packetLoss := nm_packetLoss m; nm_jitter := nm_jitter m;
     nm_throughput := nm_throughput m; nm_connectionType := t |}.

Definition with_currentQuality (v : string) (m : AdaptiveMetrics) : AdaptiveMetrics :=
  {| am_currentQuality := v; am_qualitySwitches := am_qualitySwitches m;
     am_rebufferingEvents := am_rebufferingEvents m;
     am_averageLatency := am_averageLatency m;
     am_bufferHealth := am_bufferHealth m;
     am_networkStability := am_networkStability m;
     am_userExperience := am_userExperience m |}.

Definition with_qualitySwitches (v : Z) (m : AdaptiveMetrics) : AdaptiveMetrics :=
  {| am_currentQuality := am_currentQuality m; am_qualitySwitches := v;
     am_rebufferingEvents := am_rebufferingEvents m;
     am_averageLatency := am_averageLatency m;
     am_bufferHealth := am_bufferHealth m;
     am_networkStability := am_networkStability m;
     am_userExperience := am_userExperience m |}.

Definition with_rebufferingEvents (v : Z) (m : AdaptiveMetrics) : AdaptiveMetrics :=
  {| am_currentQuality := am_currentQuality m;
     am_qualitySwitches := am_qualitySwitches m;
     am_rebufferingEvents := v;
     am_averageLatency := am_averageLatency m;
     am_bufferHealth := am_bufferHealth m;
     am_networkStability := am_networkStability m;
     am_userExperience := am_userExperience m |}.

Definition with_bufferHealth (v : Q) (m : AdaptiveMetrics) : AdaptiveMetrics :=
  {| am_currentQuality := am_currentQuality m;
     am_qualitySwitches := am_qualitySwitches m;
     am_rebufferingEvents := am_rebufferingEvents m;
     am_averageLatency := am_averageLatency m;
     am_bufferHealth := v;
     am_networkStability := am_networkStability m;
     am_userExperience := am_userExperience m |}.

Definition with_networkStability (v : Q) (m : AdaptiveMetrics) : AdaptiveMetrics :=
  {| am_currentQuality := am_currentQuality m;
     am_qualitySwitches := am_qualitySwitches m;
     am_rebufferingEvents := am_rebufferingEvents m;
     am_averageLatency := am_averageLatency m;
     am_bufferHealth := am_bufferHealth m;
     am_networkStability := v;
     am_userExperience := am_userExperience m |}.

(** ** Construction *)

Definition initializeNetworkMetrics : NetworkMetrics :=
  {| nm_bandwidth := 0; nm_latency := 0; nm_packetLoss := 0; nm_jitter := 0;
     nm_throughput := 0; nm_connectionType := Wifi |}.

Definition initializeAdaptiveMetrics : AdaptiveMetrics :=
  {| am_currentQuality := EmptyString; am_qualitySwitches := 0;
     am_rebufferingEvents := 0; am_averageLatency := 0;
     am_bufferHealth := 100; am_networkStability := 100;
     am_userExperience := Good |}.

(** [new AdaptiveStreamingEngine(config)]: the field initialisers, then the
    constructor body. *)
Definition constructor (cfg : AdaptiveStreamingConfig) : Engine :=
  {| mediaSource := None; sourceBuffer := None; videoElement := None;
     config := cfg; currentQuality := None;
     networkMetrics := initializeNetworkMetrics;
     adaptiveMetrics := initializeAdaptiveMetrics;
     qualityHistory := []; rebufferingEvents := [];
     networkMonitorInterval := false; bufferMonitorInterval := false;
     isPlaying := false; isBuffering := false; lastSegmentTime := 0;
     segmentQueue := []; qualitySwitchCooldown := 0 |}.

(** ** Initial quality and the source buffer *)

(** [a || b] on values that are objects or [undefined]. *)
Definition or_else {A} (a b : option A) : option A :=
  match a with Some x => Some x | None => b end.

Definition selectInitialQuality (s : Engine) : option QualityLevel :=
  let qualities := qualities (config s) in
  let bandwidth := nm_bandwidth (networkMetrics s) in
  (* Start with conservative quality *)
  let selectedQuality :=
    List.find (fun q => Qleb (q_bitrate q) 500000) qualities in
  (* If we have good network, start higher *)
  let selectedQuality :=
    if Qltb 2000000 bandwidth
    then List.find (fun q => Qleb (q_bitrate q) 2000000) qualities
    else selectedQuality in
  (* If we have excellent network, start with highest quality *)
  let selectedQuality :=
    if Qltb 5000000 bandwidth then last qualities else selectedQuality in
  or_else selectedQuality (head qualities).

Definition dquote : string := String (Ascii.ascii_of_nat 34) EmptyString.

(** The argument of [addSourceBuffer]: mimeType; codecs=<quoted codec>. *)
Definition bufferType (q : QualityLevel) : string :=
  q_mimeType q +:+ "; codecs=" +:+ dquote +:+ q_codec q +:+ dquote.

(** [configureSourceBuffer] registers the two listeners on the buffer and
    sets its mode; the listeners are the events [UpdateEnd] and
    [SourceBufferError] below, and no field of the engine changes. *)
Definition configureSourceBuffer (s : Engine) : Engine := s.

Definition setupSourceBuffer (s : Engine) (p : Platform) : Engine * Completion :=
  match mediaSource s with
  | None => (s, Throw (Error "MediaSource not initialized"))
  | Some _ =>
      (* Select initial quality based on network conditions *)
      let s := set_currentQuality (selectInitialQuality s) s in
      match currentQuality s with
      | None => (s, Throw (Error "No suitable quality level found"))
      | Some q =>
          if addSourceBufferThrows p
          then (s, Throw (PlatformError "addSourceBuffer"))
          else
            let s := set_sourceBuffer
                       (Some {| sb_type := bufferType q; sb_updating := false |}) s in
            let s := configureSourceBuffer s in
            (set_adaptiveMetrics
               (with_currentQuality (q_id q) (adaptiveMetrics s)) s, Normal)
      end
  end.

(** [startMonitoring] stores the handles of the two timers; their callbacks
    are the events [NetworkTick] and [BufferTick]. *)
Definition startMonitoring (s : Engine) : Engine :=
  set_monitorIntervals true true s.

(** Which of its two events the new MediaSource fires. *)
Inductive MediaSourceOutcome :=
| SourceOpen
| SourceErrorEvent (event : string).

Definition initialize (s : Engine) (o : MediaSourceOutcome) (p : Platform)
  : Engine * Completion :=
  let s := set_videoElement (Some MkVideoElement) s in
  let s := set_mediaSource (Some MkMediaSource) s in
  match o with
  | SourceOpen =>
      match setupSourceBuffer s p with
      | (s, Normal) => (startMonitoring s, Normal)
      | (s, Throw error) => (s, Throw error)        (* reject(error) *)
      end
  | SourceErrorEvent event =>
      (s, Throw (Error ("MediaSource error: " +:+ event)))
  end.

(** ** Network monitoring *)

(** [navigator.connection], when the browser has it: [effectiveType]
    (possibly undefined) and [downlink] in Mbit/s. *)
Record Connection := { effectiveType : option ConnectionType; downlink : Q }.

(** How the HEAD request of [measureThroughput] ends: with a response
    ([response.ok], the content-length header if any, and the elapsed
    milliseconds), or with a rejected promise. *)
Inductive ProbeResult :=
| ProbeResponse (ok : bool) (contentLength : option Q) (duration : Q)
| ProbeRejected.

(** [measureThroughput] up to its [await]: the request is sent. *)
Definition measureThroughput_request : list Effect := [Fetch "/api/network-test"].

(** [measureThroughput] after its [await]. *)
Definition measureThroughput (s : Engine) (r : ProbeResult) : Engine * Completion :=
  match r with
  | ProbeResponse ok contentLength duration =>
      if ok && Qltb 0 duration then
        (* Estimate bandwidth based on response time *)
        let estimatedBandwidth := default 1000%Q contentLength in
        (set_networkMetrics
           (with_throughput ((estimatedBandwidth * 8) / (duration / 1000))%Q
              (networkMetrics s)) s, Normal)
      else (s, Normal)
  | ProbeRejected =>
      (* Fallback to conservative estimate *)
      (set_networkMetrics (with_throughput 1000000 (networkMetrics s)) s, Normal)
  end.

(** [array.slice(-n)]: the last [n] elements. *)
Definition slice_last {A} (n : nat) (l : list A) : list A :=
  drop (length l - n) l.

(** [quality?.bitrate || 0] for the ladder entry with the given id. *)
Definition bitrateOf (cfg : AdaptiveStreamingConfig) (q : string) : Q :=
  match List.find (fun ql => String.eqb (q_id ql) q) (qualities cfg) with
  | Some quality => q_bitrate quality
  | None => 0
  end.

Definition calculateNetworkStability (s : Engine) : Engine :=
  let recentBandwidths := slice_last 10 (qualityHistory s) in
  if (length recentBandwidths <? 2)%nat then
    set_adaptiveMetrics (with_networkStability 100 (adaptiveMetrics s)) s
  else
    let n := inject_Z (Z.of_nat (length recentBandwidths)) in
    let avgBandwidth :=
      (fold_left (fun sum q => sum + bitrateOf (config s) q) recentBandwidths 0
       / n)%Q in
    let variance :=
      (fold_left (fun sum q =>
                    let diff := bitrateOf (config s) q - avgBandwidth in
                    sum + diff * diff) recentBandwidths 0 / n)%Q in
    set_adaptiveMetrics
      (with_networkStability
         (Qmax 0 (100 - (variance / avgBandwidth) * 100))%Q
         (adaptiveMetrics s)) s.

(** [updateNetworkMetrics] up to the [await] inside [measureThroughput]:
    the Network Information API is read, when the browser has it, and the
    probe is sent. *)
Definition updateNetworkMetrics_begin (s : Engine) (conn : option Connection)
  : Engine * list Effect :=
  let s :=
    match conn with
    | Some connection =>
        set_networkMetrics
          (with_connection (default Wifi (effectiveType connection))
             (downlink connection * 1000000)%Q (networkMetrics s)) s
    | None => s
    end in
  (s, measureThroughput_request).

(** [updateNetworkMetrics] from the answer of the probe on; whatever is
    thrown inside is caught and logged. *)
Definition updateNetworkMetrics_settle (s : Engine) (r : ProbeResult)
  : Engine * Completion :=
  match measureThroughput s r with
  | (s, Normal) => (calculateNetworkStability s, Normal)
  | (s, Throw _) => (s, Normal)
  end.

(** ** Quality selection and switching *)

(** The loop of [selectQualityForBitrate] from a given position on. *)
Fixpoint selectLoop (targetBitrate : Q) (selectedQuality : option QualityLevel)
  (rest : list QualityLevel) : option QualityLevel :=
  match rest with
  | [] => selectedQuality
  | quality :: rest =>
      if Qleb (q_bitrate quality) targetBitrate
      then selectLoop targetBitrate (Some quality) rest
      else selectedQuality                                  (* break *)
  end.

Definition selectQualityForBitrate (cfg : AdaptiveStreamingConfig)
  (targetBitrate : Q) : option QualityLevel :=
  let qualities := qualities cfg in
  (* Find the highest quality that fits within the target bitrate *)
  selectLoop targetBitrate (head qualities) qualities.

(** The second half of [switchQuality]: the old buffer is removed and the
    fields are updated; an exception ends in the [catch], which only logs. *)
Definition switchQuality_finish (s : Engine) (p : Platform)
  (newQuality : QualityLevel) : Engine :=
  if removeSourceBufferThrows p then s
  else
    let s := set_sourceBuffer
               (Some {| sb_type := bufferType newQuality; sb_updating := false |}) s in
    let s := configureSourceBuffer s in
    (* Update metrics *)
    let s := set_currentQuality (Some newQuality) s in
    let s := set_adaptiveMetrics
               (with_currentQuality (q_id newQuality) (adaptiveMetrics s)) s in
    let s := set_adaptiveMetrics
               (with_qualitySwitches (am_qualitySwitches (adaptiveMetrics s) + 1)
                  (adaptiveMetrics s)) s in
    let s := set_qualityHistory (qualityHistory s ++ [q_id newQuality]) s in
    set_qualitySwitchCooldown 2000 s.   (* 2 second cooldown *)

(** [switchQuality] as far as it runs inside its caller.  When the playback
    position lies in the first buffered range the method stops at
    [await this.extractBufferSegment(...)], with no field changed yet: the
    second component is then the quality whose switch is still to be
    finished.  [extractBufferSegment] returns null, so nothing is copied. *)
Definition switchQuality (s : Engine) (p : Platform) (newQuality : QualityLevel)
  : Engine * option QualityLevel :=
  match mediaSource s, sourceBuffer s with
  | Some _, Some _ =>
      if addSourceBufferThrows p then (s, None)
      else
        match buffered p with
        | (bufferStart, bufferEnd) :: _ =>
            let currentTime :=
              match videoElement s with Some _ => currentTime p | None => 0%Q end in
            (* Only copy relevant portion *)
            if Qleb bufferStart currentTime && Qleb currentTime bufferEnd
            then (s, Some newQuality)
            else (switchQuality_finish s p newQuality, None)
        | [] => (switchQuality_finish s p newQuality, None)
        end
  | _, _ => (s, None)
  end.

(** The microtasks of the turn: a suspended [switchQuality] is resumed. *)
Definition runMicrotasks (s : Engine) (p : Platform)
  (suspended : option QualityLevel) : Engine :=
  match suspended with
  | Some newQuality => switchQuality_finish s p newQuality
  | None => s
  end.

(** The target of [adaptQuality]: 80% of the available bandwidth. *)
Definition targetBitrate (m : NetworkMetrics) : Q :=
  let availableBandwidth := Qmin (nm_bandwidth m) (nm_throughput m) in
  (availableBandwidth * 0.8)%Q.

Definition adaptQuality (s : Engine) (p : Platform) : Engine * option QualityLevel :=
  match currentQuality s with
  | None => (s, None)
  | Some current =>
      if 0 <? qualitySwitchCooldown s then (s, None)
      else
        (* Find appropriate quality level *)
        match selectQualityForBitrate (config s) (targetBitrate (networkMetrics s)) with
        | Some newQuality =>
            if negb (String.eqb (q_id newQuality) (q_id current))
            then switchQuality s p newQuality
            else (s, None)
        | None => (s, None)
        end
  end.

(** [updateCooldown], called by the hook once per second. *)
Definition updateCooldown (s : Engine) : Engine :=
  if 0 <? qualitySwitchCooldown s
  then set_qualitySwitchCooldown (qualitySwitchCooldown s - 1000) s
  else s.

(** ** Prefetching *)

(** The URL template of [fetchNextSegments]. *)
Definition segmentUrl (q : QualityLevel) (i : nat) : string :=
  q_url q +:+ "?segment=" +:+ pretty i.

(** How a [fetch] followed by [arrayBuffer()] ends. *)
Inductive FetchResult :=
| Fetched (segment : ArrayBuffer)
| FetchRejected.

(** [preloadContent] as far as it runs inside its caller: it enters
    [fetchNextSegments(3)], whose first iteration builds the URL from the
    quality that is current at this moment and sends the request. *)
Definition preloadContent (s : Engine) : list Effect :=
  match currentQuality s with
  | None => []
  | Some current => [Fetch (segmentUrl current 0)]
  end.

(** [sourceBuffer.appendBuffer(segment)]: refused while the buffer is
    updating, otherwise the buffer starts updating. *)
Definition appendBuffer (s : Engine) (p : Platform) (segment : ArrayBuffer)
  : Engine * Completion * list Effect :=
  match sourceBuffer s with
  | None => (s, Throw (PlatformError "TypeError"), [])
  | Some sb =>
      if sb_updating sb || appendBufferThrows p
      then (s, Throw (PlatformError "InvalidStateError"), [])
      else (set_sourceBuffer
              (Some {| sb_type := sb_type sb; sb_updating := true |}) s,
            Normal, [AppendBuffer segment])
  end.

(** The loop at the end of [preloadContent]; an exception leaves it. *)
Fixpoint preloadAppend (s : Engine) (p : Platform) (nextSegments : list ArrayBuffer)
  : Engine * list Effect :=
  match nextSegments with
  | [] => (s, [])
  | segment :: rest =>
      match sourceBuffer s with
      | Some sb =>
          if negb (sb_updating sb) then
            match appendBuffer s p segment with
            | (s, Normal, fx) =>
                let '(s, fx') := preloadAppend s p rest in (s, fx ++ fx')
            | (s, Throw _, fx) => (s, fx)
            end
          else preloadAppend s p rest
      | None => preloadAppend s p rest
      end
  end.

(** [fetchNextSegments(count)] and [preloadContent] after the fetch of
    segment [i] has ended, [segments] being those fetched before.  A
    failure leaves the loop; after the last iteration the segments are
    appended. *)
Definition preloadContent_settle (s : Engine) (p : Platform) (count i : nat)
  (segments : list ArrayBuffer) (r : FetchResult) : Engine * list Effect :=
  match r with
  | Fetched segment =>
      let segments := segments ++ [segment] in
      if (S i <? count)%nat then
        match currentQuality s with
        | Some current => (s, [Fetch (segmentUrl current (S i))])
        | None => preloadAppend s p segments
        end
      else preloadAppend s p segments
  | FetchRejected => preloadAppend s p segments
  end.

(** ** Buffer monitoring *)

(** [array.findIndex] on the ids of the ladder: -1 when there is none. *)
Fixpoint findIndex (f : QualityLevel -> bool) (l : list QualityLevel) : Z :=
  match l with
  | [] => -1
  | q :: l => if f q then 0 else
                let i := findIndex f l in if i <? 0 then -1 else i + 1
  end.

(** [q.id === this.currentQuality?.id]. *)
Definition isCurrent (s : Engine) (q : QualityLevel) : bool :=
  match currentQuality s with
  | Some current => String.eqb (q_id q) (q_id current)
  | None => false
  end.

Definition handleRebufferingRisk (s : Engine) (p : Platform)
  : Engine * option QualityLevel * list Effect :=
  if isBuffering s then (s, None, [])
  else
    (* Switch to lower quality to reduce bandwidth requirements *)
    let currentIndex := findIndex (isCurrent s) (qualities (config s)) in
    let '(s, suspended) :=
      if 0 <? currentIndex then
        match qualities (config s) !! Z.to_nat (currentIndex - 1) with
        | Some lowerQuality => switchQuality s p lowerQuality
        | None => (s, None)
        end
      else (s, None) in
    (* Preload more content *)
    (s, suspended, preloadContent s).

(** The local [bufferAhead] of [monitorBufferHealth]: the end of the last
    buffered range minus the playback position.  The method computes it
    only when there is a range; without one the definition gives 0. *)
Definition bufferAhead (p : Platform) : Q :=
  match last (buffered p) with
  | Some (_, bufferEnd) => (bufferEnd - currentTime p)%Q
  | None => 0%Q
  end.

Definition monitorBufferHealth (s : Engine) (p : Platform)
  : Engine * option QualityLevel * list Effect :=
  match videoElement s, sourceBuffer s with
  | Some _, Some _ =>
      match buffered p with
      | [] =>
          (set_adaptiveMetrics (with_bufferHealth 0 (adaptiveMetrics s)) s, None, [])
      | _ :: _ =>
          (* Calculate buffer health *)
          let bufferAhead := bufferAhead p in
          let bufferHealth :=
            Qmin 100 ((bufferAhead / targetBufferLength (config s)) * 100)%Q in
          let s := set_adaptiveMetrics
                     (with_bufferHealth bufferHealth (adaptiveMetrics s)) s in
          (* Predict rebuffering *)
          if Qltb bufferAhead (rebufferThreshold (config s))
          then handleRebufferingRisk s p
          else (s, None, [])
      end
  | _, _ => (s, None, [])
  end.

(** ** Buffer events *)

Definition handleBufferUpdate (s : Engine) (p : Platform) : Engine :=
  if isBuffering s then
    let s := set_isBuffering false s in
    let s := set_adaptiveMetrics
               (with_rebufferingEvents
                  (am_rebufferingEvents (adaptiveMetrics s) + 1)
                  (adaptiveMetrics s)) s in
    set_rebufferingEvents (rebufferingEvents s ++ [now p]) s
  else s.

Definition handleBufferError (s : Engine) (p : Platform)
  : Engine * option QualityLevel :=
  let s := set_isBuffering true s in
  (* Try to recover by switching to a more stable quality *)
  match currentQuality s with
  | Some current =>
      match List.find (fun q => Qltb (q_bitrate q) (q_bitrate current))
                      (qualities (config s)) with
      | Some stableQuality => switchQuality s p stableQuality
      | None => (s, None)
      end
  | None => (s, None)
  end.

(** The browser ends an append: [updating] drops and [updateend] fires. *)
Definition updateend (s : Engine) (p : Platform) : Engine :=
  let s :=
    match sourceBuffer s with
    | Some sb => set_sourceBuffer
                   (Some {| sb_type := sb_type sb; sb_updating := false |}) s
    | None => s
    end in
  handleBufferUpdate s p.

(** ** Loading segments *)

(** The branch [loadSegment] takes at its first line. *)
Inductive LoadPath := Queue | Append.

Definition loadSegment_path (s : Engine) : LoadPath :=
  match sourceBuffer s with
  | None => Queue
  | Some sb => if sb_updating sb then Queue else Append
  end.

(** [loadSegment] up to its first [await]: in both branches the fetch is
    sent. *)
Definition loadSegment_request (url : string) : list Effect := [Fetch url].

(** [loadSegment] after the fetch has ended, in the branch chosen before.
    The result is the state, the pending switch of [handleBufferError] if
    one was started, how the promise of [loadSegment] settles, and the
    appends made. *)
Definition loadSegment_settle (s : Engine) (p : Platform) (path : LoadPath)
  (r : FetchResult)
  : Engine * option QualityLevel * Completion * list Effect :=
  match path with
  | Queue =>
      (* Queue the segment if buffer is busy *)
      match r with
      | Fetched segment =>
          (set_segmentQueue (segmentQueue s ++ [segment]) s, None, Normal, [])
      | FetchRejected => (s, None, Throw (PlatformError "fetch"), [])
      end
  | Append =>
      match r with
      | Fetched segment =>
          match appendBuffer s p segment with
          | (s, Normal, fx) =>
              (set_lastSegmentTime (now p) s, None, Normal, fx)
          | (s, Throw _, fx) =>
              let '(s, suspended) := handleBufferError s p in
              (s, suspended, Normal, fx)
          end
      | FetchRejected =>
          let '(s, suspended) := handleBufferError s p in
          (s, suspended, Normal, [])
      end
  end.

(** [loadSegment] when nothing else runs between its call and the end of
    its fetch: the promise it returns and the engine once it has settled. *)
Definition loadSegment (s : Engine) (p : Platform) (url : string) (r : FetchResult)
  : Engine * Completion * list Effect :=
  let '(s', suspended, c, fx) := loadSegment_settle s p (loadSegment_path s) r in
  (runMicrotasks s' p suspended, c, loadSegment_request url ++ fx).

(** ** Accessors and cleanup *)

Definition getMetrics (s : Engine) : AdaptiveMetrics := adaptiveMetrics s.
Definition getNetworkMetrics (s : Engine) : NetworkMetrics := networkMetrics s.

(** [destroy] clears the two timers and ends the stream; no field of the
    engine is assigned. *)
Definition destroy (s : Engine) : Engine := s.

(** ** The event loop *)

(** The callback of the network timer, with the microtasks it leaves. *)
Definition networkTick (s : Engine) (conn : option Connection) (p : Platform)
  : Engine * list Effect :=
  let '(s, fx) := updateNetworkMetrics_begin s conn in
  let '(s, suspended) := adaptQuality s p in
  (runMicrotasks s p suspended, fx).

(** The callback of the buffer timer, with the microtasks it leaves.  Its
    second statement calls [preventRebuffering], which the class does not
    define: the callback ends there with a TypeError and no field changes. *)
Definition bufferTick (s : Engine) (p : Platform) : Engine * list Effect :=
  let '(s, suspended, fx) := monitorBufferHealth s p in
  (runMicrotasks s p suspended, fx).

(** The [error] listener of the source buffer. *)
Definition sourceBufferError (s : Engine) (p : Platform) : Engine :=
  let '(s, suspended) := handleBufferError s p in
  runMicrotasks s p suspended.

(** One turn of the event loop that enters the engine.  The continuations
    of a fetch carry the local variables of the method they resume. *)
Inductive Event :=
| EvInitialize (o : MediaSourceOutcome) (p : Platform)
| EvNetworkTick (conn : option Connection) (p : Platform)
| EvProbeSettled (r : ProbeResult)
| EvBufferTick (p : Platform)
| EvPreloadSettled (p : Platform) (i : nat) (segments : list ArrayBuffer)
    (r : FetchResult)
| EvUpdateEnd (p : Platform)
| EvSourceBufferError (p : Platform)
| EvLoadSegment (url : string)
| EvLoadSegmentSettled (p : Platform) (path : LoadPath) (r : FetchResult)
| EvGetMetrics
| EvGetNetworkMetrics
| EvUpdateCooldown
| EvDestroy.

(** The timers tick only once [startMonitoring] has set them.  [destroy]
    clears them in the browser; the model lets them tick on, so every
    invariant below also holds for the engine whose timers have stopped. *)
Definition step (s : Engine) (e : Event) : Engine * list Effect :=
  match e with
  | EvInitialize o p => (fst (initialize s o p), [])
  | EvNetworkTick conn p =>
      if networkMonitorInterval s then networkTick s conn p else (s, [])
  | EvProbeSettled r => (fst (updateNetworkMetrics_settle s r), [])
  | EvBufferTick p =>
      if bufferMonitorInterval s then bufferTick s p else (s, [])
  | EvPreloadSettled p i segments r => preloadContent_settle s p 3 i segments r
  | EvUpdateEnd p => (updateend s p, [])
  | EvSourceBufferError p => (sourceBufferError s p, [])
  | EvLoadSegment url => (s, loadSegment_request url)
  | EvLoadSegmentSettled p path r =>
      let '(s, suspended, _, fx) := loadSegment_settle s p path r in
      (runMicrotasks s p suspended, fx)
  | EvGetMetrics => (s, [])
  | EvGetNetworkMetrics => (s, [])
  | EvUpdateCooldown => (updateCooldown s, [])
  | EvDestroy => (destroy s, [])
  end.

Definition next (s : Engine) (e : Event) : Engine := fst (step s e).

(** The engine after a sequence of events. *)
Definition run (s : Engine) (events : list Event) : Engine :=
  fold_left next events s.

(** The requests sent during a sequence of events, in order. *)
Fixpoint requests (s : Engine) (events : list Event) : list Effect :=
  match events with
  | [] => []
  | e :: events => snd (step s e) ++ requests (next s e) events
  end.

(** ** A configuration to compute with

    Three levels of the dashboard's ladder, with its buffer settings. *)

Definition level (i : string) (b : Q) (w h : Q) (c u : string) : QualityLevel :=
  {| q_id := i; q_bitrate := b; q_resolution := {| width := w; height := h |};
     q_codec := c; q_mimeType := "video/mp4"; q_url := u; q_bandwidth := b |}.

Definition q240 := level "240p" 400000 426 240 "avc1.42E01E" "/streams/240p/".
Definition q720 := level "720p" 2500000 1280 720 "avc1.4D401F" "/streams/720p/".
Definition q1080 := level "1080p" 5000000 1920 1080 "avc1.4D4020" "/streams/1080p/".

Definition exampleConfig : AdaptiveStreamingConfig :=
  {| qualities := [q240; q720; q1080];
     networkCheckInterval := 2000; targetBufferLength := 10;
     maxBufferLength := 30; minBufferLength := 3; lowLatencyMode := false;
     segmentDuration := 2; rebufferThreshold := 2;
     qualitySwitchThreshold := 0.8 |}.

(** A browser in which no call throws. *)
Definition playing (position : Q) (ranges : list (Q * Q)) : Platform :=
  {| currentTime := position; buffered := ranges; now := 0;
     addSourceBufferThrows := false; removeSourceBufferThrows := false;
     appendBufferThrows := false |}.

(** ** Notions the properties are phrased with *)







(** The playback position lies in the first buffered range: the condition
    under which [switchQuality] stops at its [await]. *)
Definition inFirstRange (p : Platform) : bool :=
  match buffered p with
  | (bufferStart, bufferEnd) :: _ =>
      Qleb bufferStart (currentTime p) && Qleb (currentTime p) bufferEnd
  | [] => false
  end.

(** The event is the [updateend] of the source buffer. *)
Definition isUpdateEnd (e : Event) : bool :=
  match e with EvUpdateEnd _ => true | _ => false end.

(** The event reports a buffer error to [handleBufferError]: the [error]
    event of the source buffer, or a [loadSegment] on the append branch
    whose fetch has ended. *)
Definition mayReportBufferError (e : Event) : bool :=
  match e with
  | EvSourceBufferError _ => true
  | EvLoadSegmentSettled _ Append _ => true
  | _ => false
  end.

(** The class of the user experience in the words of the specification:
    fixed thresholds on buffer health and network stability. *)
Definition userExperienceClass (bufferHealthPct networkStabilityPct : Q)
  : UserExperience :=
  if Qleb 90 bufferHealthPct && Qleb 90 networkStabilityPct then Excellent
  else if Qleb 70 bufferHealthPct && Qleb 70 networkStabilityPct then Good
  else if Qleb 50 bufferHealthPct && Qleb 50 networkStabilityPct then Fair
  else Poor.


(** ** A session to compute with *)


(** A probe answered within a millisecond and without content-length. *)
Definition fastProbe : ProbeResult := ProbeResponse true None 1.

(** [navigator.connection] reporting 4g and a downlink in Mbit/s. *)
Definition downlinkMbps (d : Q) : option Connection :=
  Some {| effectiveType := Some Conn4g; downlink := d |}.

(** The engine after [initialize] and a first answered probe: it plays the
    lowest level, 240p, and has measured 8 Mbit/s. *)
Definition started : Engine :=
  run (constructor exampleConfig)
      [EvInitialize SourceOpen (playing 0 []); EvProbeSettled fastProbe].

(** The engine after an evaluation at 10 Mbit/s has switched it to 1080p;
    the cooldown of that switch is running. *)
Definition at1080 : Engine :=
  next started (EvNetworkTick (downlinkMbps 10) (playing 0 [])).

(** The engine while the append of a first segment is in flight. *)
Definition appending : Engine :=
  next started
    (EvLoadSegmentSettled (playing 0 []) Append (Fetched [Byte.x01])).

(** ** Proof automation *)

Create Rewrite HintDb engine_frame.

Ltac unfold_engine :=
  repeat progress unfold next, step, networkTick, bufferTick,
    sourceBufferError, initialize, setupSourceBuffer, startMonitoring,
    updateNetworkMetrics_begin, updateNetworkMetrics_settle, measureThroughput,
    calculateNetworkStability, adaptQuality, monitorBufferHealth,
    handleRebufferingRisk, handleBufferError, updateend, handleBufferUpdate,
    loadSegment_settle, appendBuffer, updateCooldown, destroy, runMicrotasks,
    switchQuality, switchQuality_finish, preloadContent_settle,
    configureSourceBuffer in *.

(** Case analysis on every branch a handler takes. *)
Ltac engine_cases :=
  unfold_engine;
  repeat (case_match; simpl in *; simplify_eq);
  autorewrite with engine_frame; simpl.

(** Case analysis down to the fields the selection functions read. *)
Ltac blind_cases :=
  unfold_engine;
  unfold selectInitialQuality, selectQualityForBitrate, isCurrent,
    preloadContent in *;
  simpl in *;
  repeat (case_match; simpl in *; simplify_eq).


(** * Properties *)

(** ** Comparisons *)


Lemma Qleb_gt a b : Qleb a b = false <-> (b < a)%Q.
Proof.
  unfold Qleb. split; intros H.
  - apply Qnot_le_lt. intros Hle. apply Qle_bool_iff in Hle. congruence.
  - destruct (Qle_bool a b) eqn:E; [|reflexivity].
    apply Qle_bool_iff in E. exfalso. eapply Qlt_not_le; eassumption.
Qed.

Lemma Qltb_lt a b : Qltb a b = true <-> (a < b)%Q.
Proof.
  unfold Qltb. rewrite negb_true_iff. apply (Qleb_gt b a).
Qed.

Lemma Qltb_ge a b : Qltb a b = false <-> (b <= a)%Q.
Proof.
  unfold Qltb. rewrite negb_false_iff. apply Qle_bool_iff.
Qed.

(** ** Runs *)

Lemma run_app s es1 es2 : run s (es1 ++ es2) = run (run s es1) es2.
Proof. unfold run. apply fold_left_app. Qed.

Lemma run_cons s e es : run s (e :: es) = run (next s e) es.
Proof. reflexivity. Qed.


(** ** Selection of the quality for a target bitrate *)

Section Selection.

Variable t : Q.



End Selection.




(** The scenarios of the ladder: 1 Mbit/s selects 240p, 10 Mbit/s 1080p. *)
Example selectQualityForBitrate_1Mbps :
  selectQualityForBitrate exampleConfig
    (targetBitrate (with_throughput 1000000
                      (with_connection Wifi 1000000 initializeNetworkMetrics)))
  = Some q240.
Proof. reflexivity. Qed.

Example selectQualityForBitrate_10Mbps :
  selectQualityForBitrate exampleConfig
    (targetBitrate (with_throughput 10000000
                      (with_connection Wifi 10000000 initializeNetworkMetrics)))
  = Some q1080.
Proof. reflexivity. Qed.

(** ** What a call leaves unchanged *)

(** The appends of [preloadContent] touch the source buffer only. *)
Lemma preloadAppend_frame segments : forall s p,
  fst (preloadAppend s p segments)
  = set_sourceBuffer (sourceBuffer (fst (preloadAppend s p segments))) s.
Proof.
  induction segments as [|segment rest IH]; intros s p; simpl.
  - destruct s; reflexivity.
  - destruct (sourceBuffer s) as [sb|] eqn:Hsb; [|apply IH].
    destruct (sb_updating sb) eqn:Hup; simpl; [apply IH |].
    unfold appendBuffer. rewrite Hsb, Hup. simpl.
    destruct (appendBufferThrows p); simpl.
    + destruct s; reflexivity.
    + destruct (preloadAppend _ p rest) as [s' fx'] eqn:Hrec. simpl.
      pose proof (IH (set_sourceBuffer
                        (Some {| sb_type := sb_type sb; sb_updating := true |}) s) p)
        as Hframe.
      rewrite Hrec in Hframe. simpl in Hframe. rewrite Hframe at 1.
      destruct s; reflexivity.
Qed.

Lemma preloadAppend_adaptiveMetrics segments s p :
  adaptiveMetrics (fst (preloadAppend s p segments)) = adaptiveMetrics s.
Proof. rewrite preloadAppend_frame. reflexivity. Qed.

Lemma preloadAppend_qualitySwitchCooldown segments s p :
  qualitySwitchCooldown (fst (preloadAppend s p segments)) = qualitySwitchCooldown s.
Proof. rewrite preloadAppend_frame. reflexivity. Qed.

Lemma preloadAppend_segmentQueue segments s p :
  segmentQueue (fst (preloadAppend s p segments)) = segmentQueue s.
Proof. rewrite preloadAppend_frame. reflexivity. Qed.

Lemma preloadAppend_isBuffering segments s p :
  isBuffering (fst (preloadAppend s p segments)) = isBuffering s.
Proof. rewrite preloadAppend_frame. reflexivity. Qed.

Lemma preloadAppend_currentQuality segments s p :
  currentQuality (fst (preloadAppend s p segments)) = currentQuality s.
Proof. rewrite preloadAppend_frame. reflexivity. Qed.

#[local] Hint Rewrite preloadAppend_adaptiveMetrics
  preloadAppend_qualitySwitchCooldown preloadAppend_segmentQueue
  preloadAppend_isBuffering preloadAppend_currentQuality : engine_frame.



(** ** The cooldown *)





Example started_at_240p : currentQuality started = Some q240.
Proof. reflexivity. Qed.

Example at1080_in_cooldown :
  currentQuality at1080 = Some q1080 /\ qualitySwitchCooldown at1080 = 2000.
Proof. split; reflexivity. Qed.


(** ** The forced downgrade *)

(** With distinct ids, [findIndex] finds the index of the current level. *)
Lemma findIndex_current (l : list QualityLevel) : forall i current,
  NoDup (map q_id l) -> l !! i = Some current ->
  findIndex (fun q => String.eqb (q_id q) (q_id current)) l = Z.of_nat i.
Proof.
  induction l as [|q l IH]; intros i current Hnd Hi; [discriminate |].
  simpl. destruct i as [|i]; simpl in Hi.
  - injection Hi as ->. rewrite String.eqb_refl. reflexivity.
  - apply NoDup_cons in Hnd as [Hnotin Hnd].
    destruct (String.eqb (q_id q) (q_id current)) eqn:Heq.
    + apply String.eqb_eq in Heq. exfalso. apply Hnotin. rewrite Heq.
      apply list_elem_of_fmap. exists current. split; [reflexivity |].
      apply list_elem_of_lookup. eauto.
    + rewrite (IH i current Hnd Hi).
      destruct (Z.of_nat i <? 0) eqn:Hneg; [apply Z.ltb_lt in Hneg; lia | lia].
Qed.

(** A tick of the buffer timer that finds the buffer ahead below the
    threshold, in a browser whose Media Source calls succeed: from index 0
    nothing is switched; from a higher index the engine switches to the
    level one index below, whatever the cooldown, and the cooldown is set.
    The prefetch that follows asks for segment 0 of the old level when the
    switch was suspended (position in the first range), of the new one
    otherwise. *)
Lemma bufferTick_forced_downgrade s p i current :
  mediaSource s <> None -> sourceBuffer s <> None -> videoElement s <> None ->
  isBuffering s = false ->
  buffered p <> [] ->
  (bufferAhead p < rebufferThreshold (config s))%Q ->
  currentQuality s = Some current ->
  qualities (config s) !! i = Some current ->
  NoDup (map q_id (qualities (config s))) ->
  addSourceBufferThrows p = false -> removeSourceBufferThrows p = false ->
  let s' := fst (bufferTick s p) in
  match i with
  | O =>
      currentQuality s' = Some current /\
      qualitySwitchCooldown s' = qualitySwitchCooldown s /\
      snd (bufferTick s p) = [Fetch (segmentUrl current 0)]
  | S below =>
      exists lowerQuality,
        qualities (config s) !! below = Some lowerQuality /\
        currentQuality s' = Some lowerQuality /\
        qualitySwitchCooldown s' = 2000 /\
        snd (bufferTick s p) =
          [Fetch (segmentUrl (if inFirstRange p then current else lowerQuality) 0)]
  end.
Proof.
  intros Hms Hsb Hve Hbuf Hranges Hlow Hcur Hi Hnd Hadd Hrem.
  apply Qltb_lt in Hlow.
  unfold bufferTick, monitorBufferHealth.
  destruct (videoElement s) eqn:Eve; [| congruence].
  destruct (sourceBuffer s) eqn:Esb; [| congruence].
  destruct (mediaSource s) eqn:Ems; [| congruence].
  destruct (buffered p) as [|[bufferStart bufferEnd] ranges] eqn:Eranges;
    [congruence |].
  cbv zeta. simpl config. rewrite Hlow.
  set (s1 := set_adaptiveMetrics _ s).
  assert (Hidx : findIndex (isCurrent s1) (qualities (config s)) = Z.of_nat i).
  { unfold isCurrent. simpl. rewrite Hcur. now apply findIndex_current. }
  unfold handleRebufferingRisk.
  replace (isBuffering s1) with false by (symmetry; exact Hbuf).
  simpl config. rewrite Hidx.
  destruct i as [|below].
  - simpl. unfold preloadContent. simpl. rewrite Hcur. auto.
  - replace (0 <? Z.of_nat (S below)) with true by (symmetry; apply Z.ltb_lt; lia).
    replace (Z.to_nat (Z.of_nat (S below) - 1)) with below by lia.
    destruct (lookup_lt_is_Some_2 (qualities (config s)) below)
      as [lowerQuality Hbelow].
    { apply lookup_lt_Some in Hi. lia. }
    rewrite Hbelow. exists lowerQuality. split; [reflexivity |].
    unfold switchQuality, inFirstRange. simpl mediaSource. simpl sourceBuffer.
    simpl videoElement. rewrite Ems, Esb, Eve, Hadd, Eranges.
    destruct (Qleb bufferStart (currentTime p) && Qleb (currentTime p) bufferEnd).
    + simpl. unfold switchQuality_finish, preloadContent. rewrite Hrem.
      simpl. rewrite Hcur. auto.
    + simpl. unfold switchQuality_finish, preloadContent. rewrite Hrem.
      simpl. auto.
Qed.

(** C3.  The engine plays 1080p and the cooldown of its last switch is
    running; the buffer timer finds 1 s buffered ahead (position 4 in the
    range 0 to 5) against a threshold of 2 s.  The tick switches to 720p,
    one index below, and sets the cooldown again; the prefetch it sends
    asks for segment 0 of 1080p, the level it has just left. *)
Theorem C3_forced_downgrade_prefetches_previous_quality :
  let p := playing 4 [(0, 5)%Q] in
  currentQuality at1080 = Some q1080 /\
  0 < qualitySwitchCooldown at1080 /\
  isBuffering at1080 = false /\
  (bufferAhead p < rebufferThreshold (config at1080))%Q /\
  currentQuality (fst (bufferTick at1080 p)) = Some q720 /\
  qualitySwitchCooldown (fst (bufferTick at1080 p)) = 2000 /\
  snd (bufferTick at1080 p) = [Fetch "/streams/1080p/?segment=0"] /\
  segmentUrl q720 0 = "/streams/720p/?segment=0".
Proof.
  repeat split; try reflexivity.
Qed.

(** ** Counting rebuffering events *)

(** Only [updateend] moves the counter. *)
Lemma step_rebufferingEvents s e :
  isUpdateEnd e = false ->
  am_rebufferingEvents (adaptiveMetrics (next s e))
  = am_rebufferingEvents (adaptiveMetrics s).
Proof.
  destruct e; simpl; try discriminate; intros _; try reflexivity.
  all: engine_cases; reflexivity.
Qed.

(** Only a buffer error raises [isBuffering]. *)
Lemma step_isBuffering_raised s e :
  isBuffering s = false -> isBuffering (next s e) = true ->
  mayReportBufferError e = true.
Proof.
  destruct e; simpl; try reflexivity; intros Hoff Hon;
    try (destruct path; [| reflexivity]); exfalso.
  all: revert Hon; engine_cases; intros; congruence.
Qed.

(** A tick of the buffer timer leaves the counter and the flag alone. *)
Lemma bufferTick_rebuffering s p :
  am_rebufferingEvents (adaptiveMetrics (next s (EvBufferTick p)))
  = am_rebufferingEvents (adaptiveMetrics s) /\
  isBuffering (next s (EvBufferTick p)) = isBuffering s.
Proof.
  split; [apply step_rebufferingEvents; reflexivity |].
  engine_cases; congruence.
Qed.

Lemma bufferTicks_rebuffering ticks : forall s,
  am_rebufferingEvents (adaptiveMetrics (run s (map EvBufferTick ticks)))
  = am_rebufferingEvents (adaptiveMetrics s) /\
  isBuffering (run s (map EvBufferTick ticks)) = isBuffering s.
Proof.
  induction ticks as [|p ticks IH]; intros s; [split; reflexivity |].
  simpl map. rewrite run_cons.
  destruct (IH (next s (EvBufferTick p))) as [-> ->].
  apply bufferTick_rebuffering.
Qed.

Lemma updateend_counts s p :
  let s' := next s (EvUpdateEnd p) in
  isBuffering s' = false /\
  am_rebufferingEvents (adaptiveMetrics s')
  = am_rebufferingEvents (adaptiveMetrics s) + (if isBuffering s then 1 else 0).
Proof.
  engine_cases; split; reflexivity || lia.
Qed.

Lemma sourceBufferError_starts s p :
  isBuffering (next s (EvSourceBufferError p)) = true.
Proof. engine_cases; reflexivity. Qed.

(** C4, as the code has it.  A period of ticks of the buffer timer, however
    low the buffer ahead, changes neither [rebufferingEvents] nor
    [isBuffering], and no hysteresis margin exists.  The counter belongs to
    the episodes of [isBuffering]: only a buffer error opens one, only
    [updateend] moves the counter, by one when it closes an open episode
    and by nothing otherwise; so an episode counts once, however many ticks
    fall inside it. *)
Theorem C4_rebuffering_counted_per_buffer_error_episode :
  (forall s ticks,
     am_rebufferingEvents (adaptiveMetrics (run s (map EvBufferTick ticks)))
     = am_rebufferingEvents (adaptiveMetrics s) /\
     isBuffering (run s (map EvBufferTick ticks)) = isBuffering s) /\
  (forall s e, isBuffering s = false -> isBuffering (next s e) = true ->
               mayReportBufferError e = true) /\
  (forall s p, isBuffering (next s (EvSourceBufferError p)) = true) /\
  (forall s e, isUpdateEnd e = false ->
               am_rebufferingEvents (adaptiveMetrics (next s e))
               = am_rebufferingEvents (adaptiveMetrics s)) /\
  (forall s p,
     isBuffering (next s (EvUpdateEnd p)) = false /\
     am_rebufferingEvents (adaptiveMetrics (next s (EvUpdateEnd p)))
     = am_rebufferingEvents (adaptiveMetrics s)
       + (if isBuffering s then 1 else 0)) /\
  (forall s p ticks p',
     am_rebufferingEvents
       (adaptiveMetrics
          (run s (EvSourceBufferError p :: map EvBufferTick ticks
                  ++ [EvUpdateEnd p'])))
     = am_rebufferingEvents (adaptiveMetrics s) + 1).
Proof.
  repeat apply conj.
  - intros s ticks. apply bufferTicks_rebuffering.
  - apply step_isBuffering_raised.
  - apply sourceBufferError_starts.
  - apply step_rebufferingEvents.
  - intros s p. apply updateend_counts.
  - intros s p ticks p'. rewrite run_cons, run_app. simpl run.
    set (s1 := next s (EvSourceBufferError p)).
    destruct (bufferTicks_rebuffering ticks s1) as [Hcount Hflag].
    destruct (updateend_counts (run s1 (map EvBufferTick ticks)) p')
      as [_ Hend].
    simpl in Hend. unfold run at 1. simpl fold_left.
    fold (run s1 (map EvBufferTick ticks)).
    rewrite Hend, Hflag, Hcount.
    unfold s1. rewrite sourceBufferError_starts.
    rewrite (step_rebufferingEvents s (EvSourceBufferError p)) by reflexivity.
    reflexivity.
Qed.

(** A single period below the threshold (two ticks at 1 s and 0.5 s ahead
    against 2 s, then 8 s ahead, above 1.5 times the threshold) leaves the
    counter where it was. *)
Lemma C4_counterexample :
  let low1 := playing 4 [(0, 5)%Q] in
  let low2 := playing 4.5 [(0, 5)%Q] in
  let recovered := playing 1 [(0, 9)%Q] in
  let threshold := rebufferThreshold (config started) in
  (bufferAhead low1 < threshold)%Q /\
  (bufferAhead low2 < threshold)%Q /\
  (threshold * 1.5 < bufferAhead recovered)%Q /\
  am_rebufferingEvents
    (getMetrics (run started [EvBufferTick low1; EvBufferTick low2;
                              EvBufferTick recovered]))
  <> am_rebufferingEvents (getMetrics started) + 1.
Proof.
  repeat split; vm_compute; discriminate.
Qed.

Lemma C4_witness :
  let failed := next started (EvSourceBufferError (playing 4 [(0, 5)%Q])) in
  (isBuffering started = false /\ isBuffering failed = true /\
   mayReportBufferError (EvSourceBufferError (playing 4 [(0, 5)%Q])) = true) /\
  am_rebufferingEvents
    (adaptiveMetrics
       (run started
          (EvSourceBufferError (playing 4 [(0, 5)%Q])
           :: map EvBufferTick [playing 4 [(0, 5)%Q]; playing 4.5 [(0, 5)%Q]]
           ++ [EvUpdateEnd (playing 4.5 [(0, 5)%Q])])))
  = am_rebufferingEvents (adaptiveMetrics started) + 1.
Proof.
  intros failed.
  pose proof C4_rebuffering_counted_per_buffer_error_episode
    as (_ & Hopen & _ & _ & _ & Honce).
  assert (H0 : isBuffering started = false) by reflexivity.
  assert (H1 : isBuffering failed = true) by reflexivity.
  split.
  - split; [exact H0 | split; [exact H1 |]].
    exact (Hopen started _ H0 H1).
  - apply Honce.
Defined.

(** ** Buffer health *)





(** ** The throughput probe *)

Lemma calculateNetworkStability_networkMetrics s :
  networkMetrics (calculateNetworkStability s) = networkMetrics s.
Proof.
  unfold calculateNetworkStability. case_match; reflexivity.
Qed.

(** C6, as the code has it.  However the probe ends, the sampling completes
    normally.  A rejected request sets the throughput to the conservative
    estimate of 1 000 000 bit/s; an answer that is not ok, or that took no
    measurable time, leaves the throughput of the previous sample. *)
Theorem C6_failed_probe_falls_back_to_conservative_estimate (s : Engine) :
  (forall r, snd (updateNetworkMetrics_settle s r) = Normal) /\
  nm_throughput
    (networkMetrics (fst (updateNetworkMetrics_settle s ProbeRejected)))
  = 1000000%Q /\
  (forall ok contentLength duration,
     ok = false \/ (duration <= 0)%Q ->
     nm_throughput
       (networkMetrics
          (fst (updateNetworkMetrics_settle s
                  (ProbeResponse ok contentLength duration))))
     = nm_throughput (networkMetrics s)).
Proof.
  split; [| split].
  - intros r. unfold updateNetworkMetrics_settle, measureThroughput.
    destruct r as [ok contentLength duration|]; [| reflexivity].
    destruct (ok && Qltb 0 duration); reflexivity.
  - unfold updateNetworkMetrics_settle, measureThroughput. simpl.
    rewrite calculateNetworkStability_networkMetrics. reflexivity.
  - intros ok contentLength duration Hfail.
    unfold updateNetworkMetrics_settle, measureThroughput.
    assert (Hcond : ok && Qltb 0 duration = false).
    { destruct Hfail as [-> | Hdur]; [reflexivity |].
      apply andb_false_iff. right. now apply Qltb_ge. }
    rewrite Hcond. simpl.
    rewrite calculateNetworkStability_networkMetrics. reflexivity.
Qed.

(** The previous sample measured 8 Mbit/s; after a rejected probe the
    throughput is 1 Mbit/s. *)
Lemma C6_counterexample :
  let s' := fst (updateNetworkMetrics_settle started ProbeRejected) in
  snd (updateNetworkMetrics_settle started ProbeRejected) = Normal /\
  (nm_throughput (networkMetrics started) == 8000000)%Q /\
  (nm_throughput (networkMetrics s') == 1000000)%Q /\
  ~ (nm_throughput (networkMetrics s')
     == nm_throughput (networkMetrics started))%Q.
Proof.
  repeat split. vm_compute. discriminate.
Qed.

Lemma C6_witness :
  nm_throughput
    (networkMetrics
       (fst (updateNetworkMetrics_settle started (ProbeResponse false None 3))))
  = nm_throughput (networkMetrics started).
Proof.
  apply (proj2 (proj2
           (C6_failed_probe_falls_back_to_conservative_estimate started))).
  left. reflexivity.
Defined.

(** ** The user experience *)

Lemma step_userExperience s e :
  am_userExperience (adaptiveMetrics (next s e))
  = am_userExperience (adaptiveMetrics s).
Proof.
  destruct e; try reflexivity.
  all: engine_cases; reflexivity.
Qed.

(** C7, as the code has it.  In every state the engine reaches,
    [getMetrics] reports the user experience set at construction, good:
    no method assigns the field. *)
Theorem C7_user_experience_stays_good
  (cfg : AdaptiveStreamingConfig) (events : list Event) :
  am_userExperience (getMetrics (run (constructor cfg) events)) = Good.
Proof.
  unfold getMetrics.
  induction events as [|e events IH] using rev_ind; [reflexivity |].
  rewrite run_app. simpl run.
  fold (next (run (constructor cfg) events) e).
  rewrite step_userExperience. exact IH.
Qed.

(** A new engine reports health 100 and stability 100, which the thresholds
    class as excellent; its user experience is good. *)
Lemma C7_counterexample :
  let m := getMetrics (constructor exampleConfig) in
  userExperienceClass (am_bufferHealth m) (am_networkStability m) = Excellent /\
  am_userExperience m = Good /\
  am_userExperience m
  <> userExperienceClass (am_bufferHealth m) (am_networkStability m).
Proof.
  repeat split. discriminate.
Qed.

(** ** Loading a segment *)

(** [handleBufferError] with its microtasks raises [isBuffering] and leaves
    the queue alone. *)
Lemma sourceBufferError_frame s p :
  isBuffering (sourceBufferError s p) = true /\
  segmentQueue (sourceBufferError s p) = segmentQueue s.
Proof.
  engine_cases; split; reflexivity.
Qed.

(** [loadSegment] queues exactly when there is no source buffer or the
    buffer is updating. *)
Lemma loadSegment_path_Queue s :
  loadSegment_path s = Queue <->
  sourceBuffer s = None \/
  exists sb, sourceBuffer s = Some sb /\ sb_updating sb = true.
Proof.
  unfold loadSegment_path.
  destruct (sourceBuffer s) as [sb|]; [| intuition].
  destruct (sb_updating sb) eqn:Hup; split.
  - intros _. right. exists sb. auto.
  - reflexivity.
  - discriminate.
  - intros [H | (sb' & H & Hup')]; congruence.
Qed.

(** C8, as the code has it.  [loadSegment] sends one fetch and never a
    second one.  Without a source buffer, or while an append is in flight,
    the fetched segment goes to the queue and nothing is appended; a failed
    fetch then rejects the promise and changes nothing.  Otherwise the
    promise is fulfilled in every case: a fetched segment is appended to
    the idle buffer, which starts updating; a failed fetch or a refused
    append is handed to [handleBufferError], which raises [isBuffering]
    (and may switch the quality down), and no error reaches the caller.
    Whatever has happened between the call and the end of the fetch, a
    segment is appended only to a buffer that is not updating. *)
Theorem C8_loadSegment_queues_or_recovers_internally
  (s : Engine) (p : Platform) (url : string) (r : FetchResult) :
  (let '(s', completion, sent) := loadSegment s p url r in
   match loadSegment_path s, r with
   | Queue, Fetched segment =>
       completion = Normal /\ sent = [Fetch url] /\
       s' = set_segmentQueue (segmentQueue s ++ [segment]) s
   | Queue, FetchRejected =>
       completion = Throw (PlatformError "fetch") /\ sent = [Fetch url] /\
       s' = s
   | Append, Fetched segment =>
       completion = Normal /\
       exists sb, sourceBuffer s = Some sb /\ sb_updating sb = false /\
       if appendBufferThrows p
       then sent = [Fetch url] /\ s' = sourceBufferError s p /\
            isBuffering s' = true
       else sent = [Fetch url; AppendBuffer segment] /\
            s' = set_lastSegmentTime (now p)
                   (set_sourceBuffer
                      (Some {| sb_type := sb_type sb; sb_updating := true |}) s)
   | Append, FetchRejected =>
       completion = Normal /\ sent = [Fetch url] /\
       s' = sourceBufferError s p /\ isBuffering s' = true
   end) /\
  (forall path segment,
     AppendBuffer segment ∈ snd (loadSegment_settle s p path r) ->
     exists sb, sourceBuffer s = Some sb /\ sb_updating sb = false).
Proof.
  split.
  - pose proof (sourceBufferError_frame s p) as [Hflag _].
    unfold sourceBufferError in Hflag.
    unfold loadSegment, loadSegment_path, loadSegment_settle,
      loadSegment_request, sourceBufferError.
    destruct (sourceBuffer s) as [sb|] eqn:Hsb; simpl.
    + destruct (sb_updating sb) eqn:Hup; simpl.
      * destruct r; simpl; auto.
      * destruct r as [segment|].
        -- unfold appendBuffer. rewrite Hsb, Hup. simpl.
           destruct (appendBufferThrows p); simpl.
           ++ destruct (handleBufferError s p) as [s1 suspended]. simpl.
              split; [reflexivity |]. exists sb. auto.
           ++ split; [reflexivity |]. exists sb. auto.
        -- destruct (handleBufferError s p) as [s1 suspended]. simpl. auto.
    + destruct r; simpl; auto.
  - intros path segment.
    unfold loadSegment_settle, appendBuffer.
    destruct path, r as [fetched|]; simpl; try (intros H; inversion H; fail).
    + destruct (sourceBuffer s) as [sb|] eqn:Hsb.
      * destruct (sb_updating sb) eqn:Hup; simpl.
        -- destruct (handleBufferError s p). simpl. intros H. inversion H.
        -- destruct (appendBufferThrows p); simpl.
           ++ destruct (handleBufferError s p). simpl. intros H. inversion H.
           ++ intros _. exists sb. auto.
      * destruct (handleBufferError s p). simpl. intros H. inversion H.
    + destruct (handleBufferError s p). simpl. intros H. inversion H.
Qed.

(** The buffer is idle and the fetch fails: the promise is fulfilled, the
    caller sees no error, and [isBuffering] stays raised. *)
Lemma C8_counterexample :
  let '(s', completion, sent) :=
    loadSegment started (playing 0 []) "/streams/240p/0.m4s" FetchRejected in
  loadSegment_path started = Append /\
  completion = Normal /\
  isBuffering started = false /\ isBuffering s' = true.
Proof.
  repeat split.
Qed.

(** ** The empty ladder *)








(** ** The segment queue *)

(** The appends of [preloadContent] do not look at the queue. *)
Lemma preloadAppend_blind segments : forall s p queue,
  preloadAppend (set_segmentQueue queue s) p segments
  = (set_segmentQueue queue (fst (preloadAppend s p segments)),
     snd (preloadAppend s p segments)).
Proof.
  induction segments as [|segment rest IH]; intros s p queue; simpl;
    [reflexivity |].
  destruct (sourceBuffer s) as [sb|] eqn:Hsb; [| apply IH].
  destruct (sb_updating sb) eqn:Hup; simpl; [apply IH |].
  unfold appendBuffer. simpl. rewrite Hsb, Hup. simpl.
  destruct (appendBufferThrows p); simpl; [reflexivity |].
  match goal with
  | |- context [preloadAppend (set_sourceBuffer ?b (set_segmentQueue queue s))] =>
      change (set_sourceBuffer b (set_segmentQueue queue s))
        with (set_segmentQueue queue (set_sourceBuffer b s))
  end.
  rewrite IH.
  destruct (preloadAppend _ p rest) as [s' fx']. reflexivity.
Qed.

(** An event treats two engines that differ only in their queue alike: it
    sends the same requests, and the engines still differ only in their
    queue, to which it has added the same segments. *)
Lemma step_queue_blind s queue e :
  snd (step (set_segmentQueue queue s) e) = snd (step s e) /\
  exists added,
    segmentQueue (next s e) = segmentQueue s ++ added /\
    next (set_segmentQueue queue s) e = set_segmentQueue (queue ++ added) (next s e).
Proof.
  destruct e.
  all: try (split; [reflexivity |]; exists []; rewrite !app_nil_r;
            split; reflexivity).
  all: unfold next, step.
  - (* initialize *)
    split; [reflexivity |]. exists []. rewrite !app_nil_r.
    split; blind_cases; reflexivity.
  - (* network tick *)
    simpl networkMonitorInterval.
    destruct (networkMonitorInterval s);
      [| split; [reflexivity |]; exists []; rewrite !app_nil_r;
         split; reflexivity].
    split; [blind_cases; reflexivity |].
    exists []. rewrite !app_nil_r. split; blind_cases; reflexivity.
  - (* probe *)
    split; [reflexivity |]. exists []. rewrite !app_nil_r.
    split; blind_cases; reflexivity.
  - (* buffer tick *)
    simpl bufferMonitorInterval.
    destruct (bufferMonitorInterval s);
      [| split; [reflexivity |]; exists []; rewrite !app_nil_r;
         split; reflexivity].
    split; [blind_cases; reflexivity |].
    exists []. rewrite !app_nil_r. split; blind_cases; reflexivity.
  - (* preload *)
    unfold preloadContent_settle. simpl currentQuality.
    split.
    + repeat case_match; rewrite ?preloadAppend_blind; reflexivity.
    + exists []. rewrite !app_nil_r.
      split; repeat case_match; rewrite ?preloadAppend_blind;
        rewrite ?preloadAppend_segmentQueue; reflexivity.
  - (* updateend *)
    split; [reflexivity |]. exists []. rewrite !app_nil_r.
    split; blind_cases; reflexivity.
  - (* error event *)
    split; [reflexivity |]. exists []. rewrite !app_nil_r.
    split; blind_cases; reflexivity.
  - (* loadSegment settled *)
    destruct path, r as [segment|].
    + split; [reflexivity |]. exists [segment]. split; reflexivity.
    + split; [reflexivity |]. exists []. rewrite !app_nil_r.
      split; reflexivity.
    + split; [blind_cases; reflexivity |]. exists []. rewrite !app_nil_r.
      split; blind_cases; reflexivity.
    + split; [blind_cases; reflexivity |]. exists []. rewrite !app_nil_r.
      split; blind_cases; reflexivity.
  - (* updateCooldown *)
    split; [reflexivity |]. exists []. rewrite !app_nil_r.
    split; blind_cases; reflexivity.
Qed.

Lemma run_queue_blind events : forall s queue,
  requests (set_segmentQueue queue s) events = requests s events /\
  exists added,
    segmentQueue (run s events) = segmentQueue s ++ added /\
    run (set_segmentQueue queue s) events
    = set_segmentQueue (queue ++ added) (run s events).
Proof.
  induction events as [|e events IH]; intros s queue.
  - split; [reflexivity |]. exists []. rewrite !app_nil_r.
    split; reflexivity.
  - destruct (step_queue_blind s queue e) as (Hfx & a1 & Hq1 & Hs1).
    destruct (IH (next s e) (queue ++ a1)) as (Hreq & a2 & Hq2 & Hs2).
    split.
    + simpl. rewrite Hfx, Hs1, Hreq. reflexivity.
    + exists (a1 ++ a2). rewrite !run_cons. split.
      * rewrite Hq2, Hq1, app_assoc. reflexivity.
      * rewrite Hs1, Hs2, app_assoc. reflexivity.
Qed.

(** C10.  The segment queue only grows: over any sequence of events the
    old queue is a prefix of the new one.  Nothing reads it: the requests
    the engine sends, appends to the source buffer included, are the same
    whatever the queue holds.  And a [loadSegment] that arrives while an
    append is in flight puts its segment into that queue and appends
    nothing, so the segment never reaches the source buffer. *)
Theorem C10_segmentQueue_is_append_only_and_never_read :
  (forall s events, segmentQueue s `prefix_of` segmentQueue (run s events)) /\
  (forall s queue events,
     requests (set_segmentQueue queue s) events = requests s events) /\
  (forall s p url segment sb,
     sourceBuffer s = Some sb -> sb_updating sb = true ->
     loadSegment s p url (Fetched segment)
     = (set_segmentQueue (segmentQueue s ++ [segment]) s, Normal, [Fetch url])).
Proof.
  split; [| split].
  - intros s events.
    destruct (run_queue_blind events s []) as (_ & added & Hq & _).
    exists added. exact Hq.
  - intros s queue events. apply run_queue_blind.
  - intros s p url segment sb Hsb Hup.
    unfold loadSegment, loadSegment_path. rewrite Hsb, Hup. reflexivity.
Qed.

Lemma C10_witness :
  (exists sb, sourceBuffer appending = Some sb /\ sb_updating sb = true) /\
  loadSegment appending (playing 0 []) "/streams/240p/1.m4s" (Fetched [Byte.x02])
  = (set_segmentQueue [[Byte.x02]] appending, Normal,
     [Fetch "/streams/240p/1.m4s"]).
Proof.
  split.
  - eexists. split; reflexivity.
  - eapply (proj2 (proj2 C10_segmentQueue_is_append_only_and_never_read));
      reflexivity.
Defined.
